(** * EFF newsletter subscription (certbot/_internal/eff.py)

    A shallow embedding of the module that stages and submits subscriptions
    to the EFF mailing list, together with the properties of it that the
    specification states.

    The Python functions mutate the configuration and account objects they
    are handed, talk to the user, to the network and to the account storage.
    They are embedded in a small state-and-exception monad over a [World]
    that holds those objects, the persisted metadata and the trace of
    effects performed so far.  What the outside answers (the user at a
    prompt, the server to a POST) is read from an [Env] of oracles that see
    the whole history. *)

From stdpp Require Import base strings list gmap.
From Stdlib Require Import ZArith Ascii.

Open Scope string_scope.
Set Warnings "-register-all".

(** ** Python values, exceptions *)

(** The exceptions that can travel through this module. *)
Inductive exn :=
  | TypeError (what : string)
  | NameError (name : string)
  | AttributeError (what : string)
  | KeyError (key : string)
  | ValueError
  | HTTPError               (* requests.exceptions.HTTPError *)
  | ConnectionError         (* requests.exceptions.ConnectionError *)
  | ReadTimeout             (* requests.exceptions.ReadTimeout *)
  | MissingCommandlineFlag (msg : string)
  | Error (msg : string).   (* certbot.errors.Error *)

(** What a call into a collaborator does: it returns or it raises. *)
Inductive Outcome (A : Type) :=
  | Returns (a : A)
  | Raises (e : exn).
Arguments Returns {A} a.
Arguments Raises {A} e.

(** The objects a name of the module can be bound to. *)
Inductive pyval :=
  | PNone
  | PBool (b : bool)
  | PStr (s : string)
  | PModule (name : string)
  | PClass (name : string)
  | PFunction (name : string)
  | PLogger
  | PConfig.                (* the NamespaceConfig object of the run *)

Definition py_truthy (v : pyval) : bool :=
  match v with
  | PNone => false
  | PBool b => b
  | PStr s => negb (String.eqb s "")
  | _ => true
  end.

(** Truth value of an [Optional[str]]: [None] and the empty string are false. *)
Definition str_truthy (o : option string) : bool :=
  match o with
  | Some s => negb (String.eqb s "")
  | None => false
  end.

(** The value [json.loads] builds from a response body.  Of a float the
    module only ever observes whether it is zero. *)
Inductive json :=
  | JNull
  | JBool (b : bool)
  | JInt (z : Z)
  | JFloat (nonzero : bool)
  | JStr (s : string)
  | JArr (items : list json)
  | JObj (fields : list (string * json)).

Definition truthy (v : json) : bool :=
  match v with
  | JNull => false
  | JBool b => b
  | JInt z => negb (z =? 0)%Z
  | JFloat nonzero => nonzero
  | JStr s => negb (String.eqb s "")
  | JArr items => match items with [] => false | _ => true end
  | JObj fields => match fields with [] => false | _ => true end
  end.

Fixpoint dict_get (key : string) (fields : list (string * json)) : option json :=
  match fields with
  | [] => None
  | (k, v) :: rest => if String.eqb k key then Some v else dict_get key rest
  end.

(** [v[key]] for a string key: only a dict can be indexed by a string. *)
Definition getitem (v : json) (key : string) : Outcome json :=
  match v with
  | JObj fields =>
      match dict_get key fields with
      | Some x => Returns x
      | None => Raises (KeyError key)
      end
  | JArr _ => Raises (TypeError "list indices must be integers or slices, not str")
  | JStr _ => Raises (TypeError "string indices must be integers")
  | _ => Raises (TypeError "object is not subscriptable")
  end.

(** ** requests.Response *)

Record Response := {
  status_code : Z;
  content : string;
  json_body : option json   (* [None]: the content is not JSON *)
}.

(** [Response.raise_for_status]: raises for 4xx and 5xx. *)
Definition raise_for_status (r : Response) : Outcome unit :=
  if ((400 <=? status_code r) && (status_code r <? 600))%Z
  then Raises HTTPError
  else Returns tt.

(** [Response.json]: a body that does not parse raises a [ValueError]. *)
Definition response_json (r : Response) : Outcome json :=
  match json_body r with
  | Some v => Returns v
  | None => Raises ValueError
  end.

(** ** Configuration, account, storage *)

Record Config := {
  eff_email : option bool;            (* --eff-mail / --no-eff-mail / neither *)
  eff_email_address : option string;
  email : option string;
  dry_run : bool
}.

Record Meta := {
  register_to_eff : option string;
  meta_other : list (string * string)
}.

(** [Meta.update(register_to_eff=v)]: a new record, the other fields kept. *)
Definition meta_update (m : Meta) (v : option string) : Meta :=
  {| register_to_eff := v; meta_other := meta_other m |}.

Record Account := {
  acc_id : string;
  meta : Meta
}.

(** ** Effects *)

Inductive LogLevel := INFO | DEBUG.

Inductive LogArg :=
  | LStr (s : string)
  | LDict (d : list (string * string)).

(** Status code of [display_util.input_text]. *)
Inductive Code := OK | CANCEL.

Inductive Event :=
  | EvYesNo (message : pyval) (default : bool)
  | EvInputText (message : string) (force_interactive : bool)
  | EvNotify (message : string)
  | EvLog (level : LogLevel) (fmt : string) (args : list LogArg)
  | EvSafeEmail (address : string)
  | EvPost (url : string) (data : list (string * string))
  | EvUpdateMeta (account : string) (m : Meta).

Definition is_prompt (e : Event) : bool :=
  match e with EvYesNo _ _ | EvInputText _ _ => true | _ => false end.

Definition is_post (e : Event) : bool :=
  match e with EvPost _ _ => true | _ => false end.

Definition is_notify (e : Event) : bool :=
  match e with EvNotify _ => true | _ => false end.

Definition is_update_meta (e : Event) : bool :=
  match e with EvUpdateMeta _ _ => true | _ => false end.

Definition is_safe_email (e : Event) : bool :=
  match e with EvSafeEmail _ => true | _ => false end.

(** The collaborators of the module.  The user and the server answer as a
    function of everything that happened before. *)
Record Env := {
  safe_email : string -> bool;                        (* certbot.util.safe_email *)
  EFF_SUBSCRIBE_URI : string;                         (* constants.EFF_SUBSCRIBE_URI *)
  yesno : list Event -> pyval -> bool -> bool;        (* display_util.yesno *)
  input_text : list Event -> string -> bool -> Outcome (Code * string);
  post : list Event -> string -> list (string * string) -> Outcome Response
}.

(** The mutable state: the [config] and [acc] objects the caller passes in
    ([acc] may be [None]), what the account storage holds, and the trace. *)
Record World := {
  config : Config;
  acc : option Account;
  storage : gmap string Meta;
  trace : list Event
}.

Definition with_config (c : Config) (w : World) : World :=
  {| config := c; acc := acc w; storage := storage w; trace := trace w |}.

Definition with_acc (a : option Account) (w : World) : World :=
  {| config := config w; acc := a; storage := storage w; trace := trace w |}.

Definition with_storage (s : gmap string Meta) (w : World) : World :=
  {| config := config w; acc := acc w; storage := s; trace := trace w |}.

Definition with_trace (t : list Event) (w : World) : World :=
  {| config := config w; acc := acc w; storage := storage w; trace := t |}.

(** ** The monad *)

Inductive Res (A : Type) :=
  | Ok (a : A)
  | Raise (e : exn)
  | OutOfFuel.
Arguments Ok {A} a.
Arguments Raise {A} e.
Arguments OutOfFuel {A}.

Definition M (A : Type) : Type := World -> Res A * World.

Definition ret {A} (a : A) : M A := fun w => (Ok a, w).

Definition bind {A B} (m : M A) (k : A -> M B) : M B :=
  fun w =>
    match m w with
    | (Ok a, w') => k a w'
    | (Raise e, w') => (Raise e, w')
    | (OutOfFuel, w') => (OutOfFuel, w')
    end.

Definition raise {A} (e : exn) : M A := fun w => (Raise e, w).

Definition out_of_fuel {A} : M A := fun w => (OutOfFuel, w).

Definition lift {A} (o : Outcome A) : M A :=
  match o with
  | Returns a => ret a
  | Raises e => raise e
  end.

(** [try: body  except ...: handler]: [handler e] is [None] when no except
    clause matches [e]. *)
Definition try_except {A} (body : M A) (handler : exn -> option (M A)) : M A :=
  fun w =>
    match body w with
    | (Raise e, w') =>
        match handler e with
        | Some h => h w'
        | None => (Raise e, w')
        end
    | r => r
    end.

Declare Scope py_scope.
Delimit Scope py_scope with py.
Notation "x <- m ;; k" := (bind m (fun x => k))
  (at level 100, m at next level, right associativity) : py_scope.
Notation "m ;; k" := (bind m (fun _ => k))
  (at level 100, right associativity) : py_scope.
Open Scope py_scope.

Definition get_world : M World := fun w => (Ok w, w).

Definition emit (e : Event) : M unit :=
  fun w => (Ok tt, with_trace (trace w ++ [e])%list w).

Definition get_config : M Config := fun w => (Ok (config w), w).

Definition get_acc : M (option Account) := fun w => (Ok (acc w), w).

(** [config.eff_email_address = v] *)
Definition set_eff_email_address (v : option string) : M unit :=
  fun w =>
    (Ok tt,
     with_config {| eff_email := eff_email (config w);
                    eff_email_address := v;
                    email := email (config w);
                    dry_run := dry_run (config w) |} w).

(** [acc.meta = m] on the account object. *)
Definition set_meta (m : Meta) : M unit :=
  fun w =>
    match acc w with
    | Some a => (Ok tt, with_acc (Some {| acc_id := acc_id a; meta := m |}) w)
    | None => (Raise (AttributeError "'NoneType' object has no attribute 'meta'"), w)
    end.

(** [acc.meta] *)
Definition get_meta : M Meta :=
  fun w =>
    match acc w with
    | Some a => (Ok (meta a), w)
    | None => (Raise (AttributeError "'NoneType' object has no attribute 'meta'"), w)
    end.

(** ** The module *)

(** Names bound at module level once the module is imported: its imports,
    its logger and its functions. *)
Definition module_globals : list (string * pyval) :=
  [ ("logging", PModule "logging");
    ("Optional", PClass "typing.Optional");
    ("requests", PModule "requests");
    ("util", PModule "certbot.util");
    ("configuration", PModule "certbot.configuration");
    ("constants", PModule "certbot._internal.constants");
    ("Account", PClass "certbot._internal.account.Account");
    ("AccountFileStorage", PClass "certbot._internal.account.AccountFileStorage");
    ("display_util", PModule "certbot.display.util");
    ("logger", PLogger);
    ("prepare_subscription", PFunction "prepare_subscription");
    ("handle_subscription", PFunction "handle_subscription");
    ("_want_subscription", PFunction "_want_subscription");
    ("_get_subscription_email", PFunction "_get_subscription_email");
    ("subscribe", PFunction "subscribe");
    ("_check_response", PFunction "_check_response");
    ("_report_failure", PFunction "_report_failure") ].

Fixpoint lookup_name (x : string) (bindings : list (string * pyval)) : option pyval :=
  match bindings with
  | [] => None
  | (k, v) :: rest => if String.eqb k x then Some v else lookup_name x rest
  end.

(** Reading a name inside a function: its local frame, then the module. *)
Definition load_name (frame : list (string * pyval)) (x : string) : M pyval :=
  match lookup_name x frame with
  | Some v => ret v
  | None =>
      match lookup_name x module_globals with
      | Some v => ret v
      | None => raise (NameError x)
      end
  end.

(** Binding positional arguments to the parameters of a function without
    defaults: the counts must agree. *)
Definition bind_args (fname : string) (params : list string) (args : list pyval)
  : M (list (string * pyval)) :=
  if (length args =? length params)%nat
  then ret (zip params args)
  else raise (TypeError (fname +:+ "(): wrong number of positional arguments")).

Section Eff.

Variable E : Env.

(** *** Collaborators *)

Definition display_util_yesno (message : pyval) (default : bool) : M bool :=
  w <- get_world ;;
  emit (EvYesNo message default) ;;
  ret (yesno E (trace w) message default).

Definition display_util_input_text (message : string) (force_interactive : bool)
  : M (Code * string) :=
  w <- get_world ;;
  emit (EvInputText message force_interactive) ;;
  lift (input_text E (trace w) message force_interactive).

Definition display_util_notify (message : string) : M unit :=
  emit (EvNotify message).

Definition util_safe_email (address : string) : M bool :=
  emit (EvSafeEmail address) ;;
  ret (safe_email E address).

Definition logger_log (level : LogLevel) (fmt : string) (args : list LogArg) : M unit :=
  emit (EvLog level fmt args).

Definition requests_post (url : string) (data : list (string * string)) : M Response :=
  w <- get_world ;;
  emit (EvPost url data) ;;
  lift (post E (trace w) url data).

(** [AccountFileStorage(config).update_meta(acc)] *)
Definition storage_update_meta : M unit :=
  a <- get_acc ;;
  match a with
  | Some a =>
      emit (EvUpdateMeta (acc_id a) (meta a)) ;;
      (fun w => (Ok tt, with_storage (<[acc_id a := meta a]> (storage w)) w))
  | None => raise (AttributeError "'NoneType' object has no attribute 'meta'")
  end.

(** [c.email] *)
Definition getattr_email (c : pyval) : M (option string) :=
  match c with
  | PConfig => cfg <- get_config ;; ret (email cfg)
  | _ => raise (AttributeError "object has no attribute 'email'")
  end.

(** [prefix + v + suffix] with string literals around [v]. *)
Definition str_add3 (prefix : string) (v : option string) (suffix : string) : M string :=
  match v with
  | Some s => ret (prefix +:+ s +:+ suffix)
  | None => raise (TypeError "can only concatenate str (not NoneType) to str")
  end.

(** *** _report_failure *)

Definition _report_failure (reason : option string) : M unit :=
  let msg := ["We were unable to subscribe you the EFF mailing list"] in
  let msg :=
    match reason with
    | Some r => ((msg ++ [" because "]) ++ [r])%list
    | None => msg
    end in
  let msg := (msg ++ [". You can try again later by visiting https://act.eff.org."])%list in
  display_util_notify (String.concat "" msg).

(** *** _check_response *)

Definition _check_response (response : Response) : M unit :=
  logger_log DEBUG "Received response:
%s" [LStr (content response)] ;;
  try_except
    (lift (raise_for_status response) ;;
     body <- lift (response_json response) ;;
     status <- lift (getitem body "status") ;;
     if negb (truthy status)
     then _report_failure (Some "your e-mail address appears to be invalid")
     else ret tt)
    (fun e =>
       match e with
       | HTTPError => Some (_report_failure None)
       | ValueError | KeyError _ =>
           Some (_report_failure (Some "there was a problem with the server response"))
       | _ => None
       end).

(** *** subscribe *)

Definition subscribe_data (address : string) : list (string * string) :=
  [ ("data_type", "json");
    ("email", address);
    ("form_id", "eff_supporters_library_subscribe_form") ].

Definition subscribe (address : string) : M unit :=
  let url := EFF_SUBSCRIBE_URI E in
  let data := subscribe_data address in
  logger_log INFO "Subscribe to the EFF mailing list (email: %s)." [LStr address] ;;
  logger_log DEBUG "Sending POST request to %s:
%s" [LStr url; LDict data] ;;
  response <- requests_post url data ;;
  _check_response response.

(** *** handle_subscription

    [config] and [acc] are the objects held by the world.  The pending
    address is read twice, for the test and for the call; a value that
    passed the test is a string, so the [None] branch below is never taken. *)

Definition handle_subscription : M unit :=
  cfg <- get_config ;;
  a <- get_acc ;;
  if dry_run cfg || negb (bool_decide (is_Some a))
  then ret tt
  else
    m <- get_meta ;;
    if str_truthy (register_to_eff m)
    then
      match register_to_eff m with
      | Some address =>
          subscribe address ;;
          m <- get_meta ;;
          set_meta (meta_update m None) ;;
          storage_update_meta
      | None => ret tt
      end
    else ret tt.

(** *** _want_subscription

    Declared with one parameter, [invalid_email].  The argument of the
    prompt is the conditional [invalid_prefix + prompt if invalid else msg],
    whose test is evaluated first. *)

Definition invalid_prefix : string :=
  "There seem to be problems with the contact email address provided.".

Definition prompt : string :=
  "Would you be willing, once your first certificate is successfully issued, "
  +:+ "to share your email address with the Electronic Frontier Foundation, a "
  +:+ "founding partner of the Let's Encrypt project and the non-profit organization "
  +:+ "that develops Certbot? We'd like to send you email about our work encrypting "
  +:+ "the web, EFF news, campaigns, and ways to support digital freedom. "
  +:+ "

 If you don't want to see this prompt in the future, you can run the "
  +:+ "client with the --no-eff-mail flag set".

Definition _want_subscription (args : list pyval) : M bool :=
  frame <- bind_args "_want_subscription" ["invalid_email"] args ;;
  let frame :=
    (frame ++ [("invalid_prefix", PStr invalid_prefix); ("prompt", PStr prompt)])%list in
  invalid <- load_name frame "invalid" ;;
  message <-
    (if py_truthy invalid
     then ret (PStr (invalid_prefix +:+ prompt))
     else load_name frame "msg") ;;
  display_util_yesno message false.

(** *** _get_subscription_email

    Declared without parameters; [None] is returned when the text entered
    does not pass [util.safe_email]. *)

Definition _get_subscription_email (args : list pyval) : M (option string) :=
  frame <- bind_args "_get_subscription_email" [] args ;;
  c <- load_name frame "config" ;;
  default_email <- getattr_email c ;;
  reuse_email_msg <-
    str_add3 "would you like to re-use your email address (" default_email
             ") for the EFF newsletter?" ;;
  reuse <- display_util_yesno (PStr reuse_email_msg) false ;;
  if reuse
  then c <- load_name frame "config" ;; getattr_email c
  else
    let msg := "Enter email address you'd like to share with the EFF
" in
    entered <-
      try_except
        (display_util_input_text msg true)
        (fun e =>
           Some (load_name frame "errors" ;;
                 match e with
                 | MissingCommandlineFlag _ =>
                     let msg :=
                       "EFF mailing list registration must be run non-interactively unless both"
                       +:+ "the --eff-mail and --eff-email-addess flags are set" in
                     load_name frame "errors" ;;
                     raise (MissingCommandlineFlag msg)
                 | _ => raise e
                 end)) ;;
    let '(code, address) := entered in
    match code with
    | OK =>
        valid <- util_safe_email address ;;
        if valid then ret (Some address) else ret None
    | CANCEL =>
        load_name frame "errors" ;;
        raise (Error "An e-mail address must be provided.")
    end.

(** *** prepare_subscription *)

(** The [while] loop of lines 35-38.  The result tells whether the function
    goes on after the loop ([true]) or has executed the [return] inside it
    ([false]). *)
Fixpoint prepare_loop (fuel : nat) : M bool :=
  cfg <- get_config ;;
  again <-
    (if negb (str_truthy (eff_email_address cfg))
     then ret true
     else
       match eff_email_address cfg with
       | Some address => valid <- util_safe_email address ;; ret (negb valid)
       | None => ret true
       end) ;;
  if again
  then
    match fuel with
    | O => out_of_fuel
    | S fuel' =>
        want <- _want_subscription [PBool true] ;;
        if negb want
        then ret false
        else
          address <- _get_subscription_email [PBool true] ;;
          set_eff_email_address address ;;
          prepare_loop fuel'
    end
  else ret true.

(** Lines 40-42. *)
Definition prepare_persist : M unit :=
  m <- get_meta ;;
  if str_truthy (register_to_eff m)
  then storage_update_meta
  else ret tt.

Definition prepare_subscription (fuel : nat) : M unit :=
  cfg <- get_config ;;
  match eff_email cfg with
  | Some false => ret tt
  | pref =>
      want <-
        (match pref with
         | Some true => ret true
         | _ => _want_subscription []
         end) ;;
      if want
      then
        cfg <- get_config ;;
        (if negb (str_truthy (eff_email_address cfg))
         then address <- _get_subscription_email [] ;; set_eff_email_address address
         else ret tt) ;;
        continue <- prepare_loop fuel ;;
        if continue
        then
          m <- get_meta ;;
          cfg <- get_config ;;
          set_meta (meta_update m (eff_email_address cfg)) ;;
          prepare_persist
        else ret tt
      else prepare_persist
  end.

End Eff.

(** ** What the specification calls things *)

(** The result of one submission attempt (specification, section 3). *)
Inductive SubscriptionOutcome :=
  | Success
  | InvalidEmail
  | ServerError
  | MalformedResponse.

(** The user-visible failure message (specification, section 7): the
    bracketed clause is there only when a reason is given. *)
Definition failure_message (reason : option string) : string :=
  "We were unable to subscribe you the EFF mailing list"
  +:+ match reason with
      | Some r => " because " +:+ r
      | None => ""
      end
  +:+ ". You can try again later by visiting https://act.eff.org.".

(** What the user is told for each outcome: nothing on success. *)
Definition report (o : SubscriptionOutcome) : list Event :=
  match o with
  | Success => []
  | InvalidEmail =>
      [EvNotify (failure_message (Some "your e-mail address appears to be invalid"))]
  | ServerError => [EvNotify (failure_message None)]
  | MalformedResponse =>
      [EvNotify (failure_message (Some "there was a problem with the server response"))]
  end.

Definition is_2xx (r : Response) : bool :=
  ((200 <=? status_code r) && (status_code r <? 300))%Z.

(** The [status] field of a decoded body, when it has one. *)
Definition status_field (body : json) : option json :=
  match body with
  | JObj fields => dict_get "status" fields
  | _ => None
  end.

(** The classification as the specification words it (section 4.3), in its
    order. *)
Definition spec_classify (r : Response) : SubscriptionOutcome :=
  if negb (is_2xx r) then ServerError
  else
    match json_body r with
    | None => MalformedResponse
    | Some body =>
        match status_field body with
        | None => MalformedResponse
        | Some v => if truthy v then Success else InvalidEmail
        end
    end.

(** [t] occurs inside [s]. *)
Definition contains (s t : string) : Prop :=
  exists before after, s = before +:+ t +:+ after.

(** The world with more events at the end of its trace. *)
Definition extend (w : World) (evs : list Event) : World :=
  with_trace (trace w ++ evs)%list w.

(** Projections of the trace: the requests sent, the questions asked, what
    the user was told. *)
Definition posts (w : World) : list Event := List.filter is_post (trace w).
Definition prompts (w : World) : list Event := List.filter is_prompt (trace w).
Definition notifications (w : World) : list Event := List.filter is_notify (trace w).

(** The pending subscription of the account object, if there is an account. *)
Definition pending (w : World) : option string :=
  match acc w with
  | Some a => register_to_eff (meta a)
  | None => None
  end.

(** What [_check_response] makes of a response: the outcome it reports, or
    the exception that none of its [except] clauses catches. *)
Definition check_outcome (r : Response) : Outcome SubscriptionOutcome :=
  match raise_for_status r with
  | Raises _ => Returns ServerError
  | Returns _ =>
      match response_json r with
      | Raises _ => Returns MalformedResponse
      | Returns body =>
          match getitem body "status" with
          | Returns v => Returns (if truthy v then Success else InvalidEmail)
          | Raises (KeyError _) => Returns MalformedResponse
          | Raises e => Raises e
          end
      end
  end.

(** The two log records [subscribe] writes before the request. *)
Definition subscribe_logs (E : Env) (address : string) : list Event :=
  [ EvLog INFO "Subscribe to the EFF mailing list (email: %s)." [LStr address];
    EvLog DEBUG "Sending POST request to %s:
%s" [LStr (EFF_SUBSCRIBE_URI E); LDict (subscribe_data address)] ].

Definition response_log (r : Response) : Event :=
  EvLog DEBUG "Received response:
%s" [LStr (content r)].

(** ** Derived notions used in the statements *)

Definition want_subscription_arity : exn :=
  TypeError "_want_subscription(): wrong number of positional arguments".

Definition get_subscription_email_arity : exn :=
  TypeError "_get_subscription_email(): wrong number of positional arguments".

(** The world after a valid address [a] has been staged from [w]. *)
Definition staged (a : string) (w : World) : Res unit * World :=
  match acc w with
  | Some ac =>
      let m := meta_update (meta ac) (Some a) in
      (Ok tt,
       with_storage (<[acc_id ac := m]> (storage w))
         (extend (with_acc (Some {| acc_id := acc_id ac; meta := m |}) w)
                 [EvSafeEmail a; EvUpdateMeta (acc_id ac) m]))
  | None =>
      (Raise (AttributeError "'NoneType' object has no attribute 'meta'"),
       extend w [EvSafeEmail a])
  end.

(** The events of one call to [subscribe] up to and including the request. *)
Definition request_events (E : Env) (address : string) : list Event :=
  (subscribe_logs E address ++
   [EvPost (EFF_SUBSCRIBE_URI E) (subscribe_data address)])%list.

(** What the server does with the request that [subscribe] makes in [w]. *)
Definition server_reply (E : Env) (address : string) (w : World) : Outcome Response :=
  post E (trace w ++ subscribe_logs E address)
       (EFF_SUBSCRIBE_URI E) (subscribe_data address).

(** The account object once its pending subscription has been cleared and
    written to the storage. *)
Definition cleared (ac : Account) (w : World) : World :=
  let m := meta_update (meta ac) None in
  with_storage (<[acc_id ac := m]> (storage w))
    (extend (with_acc (Some {| acc_id := acc_id ac; meta := m |}) w)
            [EvUpdateMeta (acc_id ac) m]).

(** One call to [subscribe] returns normally and tells the user exactly what
    outcome [o] calls for. *)
Definition reported_as (o : SubscriptionOutcome) (E : Env) (address : string)
    (w : World) : Prop :=
  exists w1,
    subscribe E address w = (Ok tt, w1) /\
    notifications w1 = (notifications w ++ report o)%list.

(** One call to [handle_subscription] leaves no pending subscription, has
    the account persisted, and a second call changes nothing. *)
Definition cleared_for_good (E : Env) (w : World) : Prop :=
  exists res w1 ac1,
    handle_subscription E w = (res, w1) /\
    acc w1 = Some ac1 /\
    register_to_eff (meta ac1) = None /\
    storage w1 !! acc_id ac1 = Some (meta ac1) /\
    handle_subscription E w1 = (Ok tt, w1).

(** ** Sample collaborators and states *)

(** A stand-in for [util.safe_email]: an address has an at sign. *)
Fixpoint has_at (s : string) : bool :=
  match s with
  | EmptyString => false
  | String c rest => Ascii.eqb c "@"%char || has_at rest
  end.

(** A user who answers every yes/no prompt by [answer] of its default, and
    a server that always does [server]. *)
Definition sample_env (answer : bool -> bool) (server : Outcome Response) : Env :=
  {| safe_email := has_at;
     EFF_SUBSCRIBE_URI := "https://supporters.eff.org/subscribe/certbot";
     yesno := fun _ _ default => answer default;
     input_text := fun _ _ _ => Returns (OK, "user@example.org");
     post := fun _ _ _ => server |}.

Definition accept_default (default : bool) : bool := default.
Definition always_no (default : bool) : bool := false.
Definition always_yes (default : bool) : bool := true.

Definition response_subscribed : Response :=
  {| status_code := 200;
     content := "{status: true}";
     json_body := Some (JObj [("status", JBool true)]) |}.

Definition response_rejected : Response :=
  {| status_code := 200;
     content := "{status: false}";
     json_body := Some (JObj [("status", JBool false)]) |}.

Definition response_not_json : Response :=
  {| status_code := 200;
     content := "not-json";
     json_body := None |}.

Definition response_500 : Response :=
  {| status_code := 500;
     content := "Internal Server Error";
     json_body := None |}.

Definition response_array : Response :=
  {| status_code := 200;
     content := "[]";
     json_body := Some (JArr []) |}.

Definition sample_config (pref : option bool) (address : option string) (dry : bool)
  : Config :=
  {| eff_email := pref;
     eff_email_address := address;
     email := Some "admin@example.org";
     dry_run := dry |}.

Definition sample_account (pending_email : option string) : Account :=
  {| acc_id := "a1b2c3";
     meta := {| register_to_eff := pending_email;
                meta_other := [("creation_host", "host.example.org")] |} |}.

Definition sample_world (cfg : Config) (a : option Account) : World :=
  {| config := cfg; acc := a; storage := ∅; trace := [] |}.

Definition sample_address : string := "user@example.org".

(** A server that cannot be reached, one that subscribes, one that fails,
    one that answers with a JSON list. *)
Definition offline_env : Env := sample_env accept_default (Raises ConnectionError).
Definition online_env : Env := sample_env accept_default (Returns response_subscribed).
Definition failing_env : Env := sample_env accept_default (Returns response_500).
Definition list_env : Env := sample_env accept_default (Returns response_array).

(** Users who decline, respectively accept, whatever they are asked. *)
Definition declining_env : Env := sample_env always_no (Returns response_subscribed).
Definition consenting_env : Env := sample_env always_yes (Returns response_subscribed).

(** An account with a pending subscription, outside and inside a dry run. *)
Definition pending_world : World :=
  sample_world (sample_config (Some true) None false)
               (Some (sample_account (Some sample_address))).

Definition dry_run_world : World :=
  sample_world (sample_config (Some true) None true)
               (Some (sample_account (Some sample_address))).

(** A fresh account under each preference. *)
Definition opt_out_world : World :=
  sample_world (sample_config (Some false) (Some sample_address) false)
               (Some (sample_account None)).

Definition unset_world : World :=
  sample_world (sample_config None None false) (Some (sample_account None)).

Definition invalid_address_world : World :=
  sample_world (sample_config (Some true) (Some "not-an-address") false)
               (Some (sample_account None)).

Definition no_address_world : World :=
  sample_world (sample_config (Some true) None false) (Some (sample_account None)).

(** The statuses for which [raise_for_status] raises. *)
Definition is_4xx_5xx (r : Response) : bool :=
  ((400 <=? status_code r) && (status_code r <? 600))%Z.

(** The same response under another status code. *)
Definition with_status (code : Z) (r : Response) : Response :=
  {| status_code := code; content := content r; json_body := json_body r |}.

(** The identity of the account object and the metadata fields other than
    the pending subscription. *)
Definition account_frame (w : World) : option (string * list (string * string)) :=
  match acc w with
  | Some a => Some (acc_id a, meta_other (meta a))
  | None => None
  end.

(** A valid address given on the command line with [--eff-mail]. *)
Definition valid_address_world : World :=
  sample_world (sample_config (Some true) (Some sample_address) false)
               (Some (sample_account None)).

Definition response_redirect : Response :=
  {| status_code := 302;
     content := "{status: true}";
     json_body := Some (JObj [("status", JBool true)]) |}.


(** The calls of [storage.update_meta] recorded in the trace. *)
Definition updates (w : World) : list Event :=
  List.filter is_update_meta (trace w).

(** * Properties *)

Section Facts.

Variable E : Env.

Lemma extend_nil w : extend w [] = w.
Proof. destruct w; unfold extend, with_trace; simpl. by rewrite app_nil_r. Qed.

Lemma extend_extend w evs evs' :
  extend (extend w evs) evs' = extend w (evs ++ evs').
Proof. unfold extend, with_trace; simpl. by rewrite app_assoc. Qed.

Lemma emit_run e w : emit e w = (Ok tt, extend w [e]).
Proof. reflexivity. Qed.

Lemma report_failure_run reason w :
  _report_failure reason w = (Ok tt, extend w [EvNotify (failure_message reason)]).
Proof. destruct reason; reflexivity. Qed.

(** Two computed worlds agree up to the bracketing of their traces. *)
Ltac same_world :=
  rewrite ?report_failure_run;
  unfold extend, with_trace; simpl; rewrite <- ?app_assoc; reflexivity.

Lemma check_response_run r w :
  _check_response r w =
    match check_outcome r with
    | Returns o => (Ok tt, extend w (response_log r :: report o))
    | Raises e => (Raise e, extend w [response_log r])
    end.
Proof.
  unfold _check_response, check_outcome, logger_log, bind, try_except.
  rewrite emit_run. fold (response_log r).
  destruct (raise_for_status r) as [[]|e] eqn:Hs; simpl.
  - destruct (response_json r) as [body|e] eqn:Hj; simpl.
    + destruct (getitem body "status") as [v|e] eqn:Hg; simpl.
      * destruct (truthy v); simpl.
        -- reflexivity.
        -- same_world.
      * unfold getitem in Hg.
        destruct body; try (inversion Hg; subst; reflexivity).
        destruct (dict_get "status" fields); inversion Hg; subst; simpl.
        same_world.
    + unfold response_json in Hj. destruct (json_body r); inversion Hj; subst; simpl.
      same_world.
  - unfold raise_for_status in Hs.
    destruct ((400 <=? status_code r)%Z && (status_code r <? 600)%Z);
      inversion Hs; subst; simpl.
    same_world.
Qed.

Lemma subscribe_run address w :
  let w1 := extend w (subscribe_logs E address ++
                      [EvPost (EFF_SUBSCRIBE_URI E) (subscribe_data address)]) in
  subscribe E address w =
    match post E (trace w ++ subscribe_logs E address)
               (EFF_SUBSCRIBE_URI E) (subscribe_data address) with
    | Returns r => _check_response r w1
    | Raises e => (Raise e, w1)
    end.
Proof.
  unfold subscribe, requests_post, logger_log, bind, get_world.
  rewrite !emit_run, !extend_extend. simpl.
  unfold subscribe_logs.
  destruct (post _ _ _ _); reflexivity.
Qed.

(** *** The consent flow *)

(** Called as the module declares it, with one argument, the function
    stops at the name [invalid], which nothing binds. *)
Lemma want_subscription_one_arg v w :
  _want_subscription E [v] w = (Raise (NameError "invalid"), w).
Proof. reflexivity. Qed.

(** Called without argument it does not start. *)
Lemma want_subscription_no_arg w :
  _want_subscription E [] w = (Raise want_subscription_arity, w).
Proof. reflexivity. Qed.

Lemma get_subscription_email_no_arg w :
  _get_subscription_email E [] w = (Raise (NameError "config"), w).
Proof. reflexivity. Qed.

Lemma get_subscription_email_args v args w :
  _get_subscription_email E (v :: args) w = (Raise get_subscription_email_arity, w).
Proof. reflexivity. Qed.

(** Every run of [prepare_subscription], by cases on the configuration. *)
Lemma prepare_subscription_run fuel w :
  prepare_subscription E fuel w =
    match eff_email (config w) with
    | Some false => (Ok tt, w)
    | None => (Raise want_subscription_arity, w)
    | Some true =>
        match eff_email_address (config w) with
        | Some a =>
            if String.eqb a "" then (Raise (NameError "config"), w)
            else if safe_email E a then staged a w
            else
              match fuel with
              | O => (OutOfFuel, extend w [EvSafeEmail a])
              | S _ => (Raise (NameError "invalid"), extend w [EvSafeEmail a])
              end
        | None => (Raise (NameError "config"), w)
        end
    end.
Proof.
  unfold prepare_subscription, bind, get_config.
  destruct (eff_email (config w)) as [[|]|] eqn:Hpref; try reflexivity.
  simpl.
  destruct (eff_email_address (config w)) as [a|] eqn:Haddr; simpl; try reflexivity.
  destruct (String.eqb a "") eqn:Hempty; simpl; try reflexivity.
  destruct fuel as [|fuel]; simpl; unfold bind, get_config; simpl;
    rewrite Haddr; simpl; rewrite Hempty; simpl;
    destruct (safe_email E a) eqn:Hvalid; simpl; try reflexivity.
  all: unfold staged, get_meta, set_meta, prepare_persist, bind, get_meta; simpl;
    destruct (acc w) as [ac|] eqn:Hacc; simpl; try reflexivity.
  all: rewrite Haddr; simpl; rewrite ?Hacc; simpl; rewrite ?Hempty; simpl;
    unfold storage_update_meta, bind, get_acc; simpl; same_world.
Qed.

(** *** Submission *)

(** Every run of [subscribe]: only the trace changes. *)
Lemma subscribe_cases address w :
  subscribe E address w =
    match server_reply E address w with
    | Raises e => (Raise e, extend w (request_events E address))
    | Returns r =>
        match check_outcome r with
        | Returns o =>
            (Ok tt, extend w (request_events E address ++ response_log r :: report o))
        | Raises e =>
            (Raise e, extend w (request_events E address ++ [response_log r]))
        end
    end.
Proof.
  pose proof (subscribe_run address w) as H. simpl in H. rewrite H.
  unfold server_reply, request_events.
  destruct (post _ _ _ _) as [r|e]; [|reflexivity].
  rewrite check_response_run.
  destruct (check_outcome r); rewrite extend_extend; reflexivity.
Qed.

(** Every run of [handle_subscription]. *)
Lemma handle_subscription_run w :
  handle_subscription E w =
    if dry_run (config w) then (Ok tt, w)
    else
      match acc w with
      | None => (Ok tt, w)
      | Some ac =>
          match register_to_eff (meta ac) with
          | None => (Ok tt, w)
          | Some address =>
              if String.eqb address "" then (Ok tt, w)
              else
                match subscribe E address w with
                | (Ok _, w1) => (Ok tt, cleared ac w1)
                | (Raise e, w1) => (Raise e, w1)
                | (OutOfFuel, w1) => (OutOfFuel, w1)
                end
          end
      end.
Proof.
  unfold handle_subscription, bind, get_config, get_acc.
  destruct (dry_run (config w)); [reflexivity|]. simpl.
  destruct (acc w) as [ac|] eqn:Hacc; [|reflexivity]. simpl.
  unfold get_meta at 1. rewrite Hacc.
  destruct (register_to_eff (meta ac)) as [address|]; [|reflexivity]. simpl.
  destruct (String.eqb address ""); [reflexivity|]. simpl.
  rewrite subscribe_cases.
  destruct (server_reply E address w) as [r|e]; [|reflexivity].
  destruct (check_outcome r) as [o|e]; [|reflexivity].
  unfold get_meta, set_meta, storage_update_meta, bind, get_acc, cleared. simpl.
  rewrite !Hacc. simpl. rewrite ?Hacc. simpl. same_world.
Qed.

Lemma posts_extend w evs :
  posts (extend w evs) = (posts w ++ List.filter is_post evs)%list.
Proof. unfold posts, extend. simpl. apply List.filter_app. Qed.

Lemma prompts_extend w evs :
  prompts (extend w evs) = (prompts w ++ List.filter is_prompt evs)%list.
Proof. unfold prompts, extend. simpl. apply List.filter_app. Qed.

Lemma notifications_extend w evs :
  notifications (extend w evs) = (notifications w ++ List.filter is_notify evs)%list.
Proof. unfold notifications, extend. simpl. apply List.filter_app. Qed.

Lemma report_has_no_post o : List.filter is_post (report o) = [].
Proof. destruct o; reflexivity. Qed.

(** Where the code and the specification's classification agree: a 2xx
    response whose body is not JSON or is a JSON object. *)
Lemma check_outcome_2xx r :
  is_2xx r = true ->
  (forall body, json_body r = Some body -> exists fields, body = JObj fields) ->
  check_outcome r = Returns (spec_classify r).
Proof.
  intros H2 Hobj. unfold check_outcome, spec_classify, raise_for_status, response_json.
  rewrite H2. simpl.
  unfold is_2xx in H2. apply andb_prop in H2 as [Hlo Hhi].
  replace ((400 <=? status_code r)%Z && (status_code r <? 600)%Z) with false by lia.
  destruct (json_body r) as [body|]; [|reflexivity].
  destruct (Hobj body eq_refl) as [fields ->]. simpl.
  destruct (dict_get "status" fields); reflexivity.
Qed.

Lemma failure_message_contains reason :
  contains (failure_message (Some reason)) reason.
Proof.
  exists "We were unable to subscribe you the EFF mailing list because ",
         ". You can try again later by visiting https://act.eff.org.".
  reflexivity.
Qed.

(** *** handle_subscription *)

(** C7. With [dry_run] set, [handle_subscription] returns at once whatever
    the account is (present with any pending field, or absent): the world is
    left as it was, so no request is sent, the metadata is not touched and
    nothing is written to the storage. *)
Theorem handle_subscription_dry_run w :
  dry_run (config w) = true ->
  handle_subscription E w = (Ok tt, w).
Proof. intros Hdry. rewrite handle_subscription_run, Hdry. reflexivity. Qed.

(** C1, amended. For an account whose pending address is not empty, without
    [dry_run], when the server answers the request with a response that
    [_check_response] classifies (whatever the outcome), one call sends
    exactly one request, clears the pending field and persists the account,
    and a second call in the resulting state changes nothing. *)
Theorem handle_subscription_attempts_once w ac address r o :
  dry_run (config w) = false ->
  acc w = Some ac ->
  register_to_eff (meta ac) = Some address ->
  address <> "" ->
  server_reply E address w = Returns r ->
  check_outcome r = Returns o ->
  exists w1,
    handle_subscription E w = (Ok tt, w1) /\
    pending w1 = None /\
    storage w1 !! acc_id ac = Some (meta_update (meta ac) None) /\
    posts w1 = (posts w ++ [EvPost (EFF_SUBSCRIBE_URI E) (subscribe_data address)])%list /\
    handle_subscription E w1 = (Ok tt, w1).
Proof.
  intros Hdry Hacc Hpend Hne Hreply Hout.
  apply String.eqb_neq in Hne.
  eexists. split.
  - rewrite handle_subscription_run, Hdry, Hacc, Hpend, Hne, subscribe_cases,
      Hreply, Hout. reflexivity.
  - split; [reflexivity|]. split; [|split].
    + unfold cleared, with_storage, extend. simpl. apply lookup_insert_eq.
    + unfold posts, cleared. simpl.
      rewrite !List.filter_app. simpl. rewrite report_has_no_post.
      rewrite app_nil_r. reflexivity.
    + rewrite handle_subscription_run. unfold cleared. simpl.
      rewrite Hdry. reflexivity.
Qed.

(** *** subscribe *)

(** C8. Whatever the address, the state and the server's reaction,
    [subscribe] sends exactly one POST, to [EFF_SUBSCRIBE_URI], and its form
    has the three fields [data_type], [email] and [form_id]. *)
Theorem subscribe_posts_once address w :
  posts (snd (subscribe E address w)) =
    (posts w ++ [EvPost (EFF_SUBSCRIBE_URI E) (subscribe_data address)])%list
  /\ subscribe_data address =
       [ ("data_type", "json");
         ("email", address);
         ("form_id", "eff_supporters_library_subscribe_form") ].
Proof.
  split; [|reflexivity].
  rewrite subscribe_cases.
  destruct (server_reply E address w) as [r|e]; [destruct (check_outcome r) as [o|e]|];
    simpl; rewrite posts_extend; f_equal; unfold request_events;
    rewrite ?List.filter_app; simpl; rewrite ?report_has_no_post; reflexivity.
Qed.

(** C2, amended. When the server answers with a 4xx or 5xx status,
    [subscribe] returns normally, the failure counts as [ServerError] for
    the code and for the specification, and the user gets one notification,
    which carries no reason. *)
Theorem subscribe_http_error_reported address w r :
  server_reply E address w = Returns r ->
  (400 <= status_code r < 600)%Z ->
  check_outcome r = Returns ServerError /\
  spec_classify r = ServerError /\
  reported_as ServerError E address w /\
  report ServerError =
    [EvNotify ("We were unable to subscribe you the EFF mailing list"
               +:+ ". You can try again later by visiting https://act.eff.org.")].
Proof.
  intros Hreply Hstatus.
  assert (Hout : check_outcome r = Returns ServerError).
  { unfold check_outcome, raise_for_status.
    replace ((400 <=? status_code r)%Z && (status_code r <? 600)%Z) with true by lia.
    reflexivity. }
  split; [exact Hout|]. split; [|split; [|reflexivity]].
  - unfold spec_classify, is_2xx.
    replace ((200 <=? status_code r)%Z && (status_code r <? 300)%Z) with false by lia.
    reflexivity.
  - eexists. split.
    + rewrite subscribe_cases, Hreply, Hout. reflexivity.
    + rewrite notifications_extend. f_equal.
Qed.

(** C5. A 2xx response whose body is JSON but a list has no [status] field,
    which the specification classifies as [MalformedResponse]; indexing it
    raises a [TypeError] that no [except] clause of [_check_response]
    catches, so [subscribe] raises and the user is told nothing. *)
Theorem subscribe_json_list_escapes address w r items :
  server_reply E address w = Returns r ->
  is_2xx r = true ->
  json_body r = Some (JArr items) ->
  spec_classify r = MalformedResponse /\
  exists w1,
    subscribe E address w =
      (Raise (TypeError "list indices must be integers or slices, not str"), w1) /\
    notifications w1 = notifications w.
Proof.
  intros Hreply H2 Hbody. split.
  - unfold spec_classify. rewrite H2, Hbody. reflexivity.
  - assert (Hout : check_outcome r =
      Raises (TypeError "list indices must be integers or slices, not str")).
    { unfold check_outcome, raise_for_status, response_json.
      unfold is_2xx in H2.
      replace ((400 <=? status_code r)%Z && (status_code r <? 600)%Z) with false by lia.
      rewrite Hbody. reflexivity. }
    eexists. split.
    + rewrite subscribe_cases, Hreply, Hout. reflexivity.
    + rewrite notifications_extend. simpl. apply app_nil_r.
Qed.

(** Where the specification's classification is what the user is told: a
    2xx response whose body is not JSON or is a JSON object. *)
Lemma subscribe_2xx_reported address w r :
  server_reply E address w = Returns r ->
  is_2xx r = true ->
  (forall body, json_body r = Some body -> exists fields, body = JObj fields) ->
  reported_as (spec_classify r) E address w.
Proof.
  intros Hreply H2 Hobj. eexists. split.
  - rewrite subscribe_cases, Hreply, (check_outcome_2xx r H2 Hobj). reflexivity.
  - rewrite notifications_extend. f_equal.
    unfold request_events. rewrite List.filter_app. simpl.
    destruct (spec_classify r); reflexivity.
Qed.

(** *** prepare_subscription *)

(** C6. With the preference set to no ([eff_email] is [False]),
    [prepare_subscription] returns at once and leaves the world as it was:
    nothing is asked, no address is validated, the metadata and the storage
    are untouched. *)
Theorem prepare_subscription_opt_out fuel w :
  eff_email (config w) = Some false ->
  prepare_subscription E fuel w = (Ok tt, w).
Proof. intros Hpref. rewrite prepare_subscription_run, Hpref. reflexivity. Qed.

(** C4. With the preference unset, [prepare_subscription] calls
    [_want_subscription] without the argument it requires: the call raises a
    [TypeError] before any prompt, whatever the user would have answered,
    and no candidate address is obtained. *)
Theorem prepare_subscription_unset_raises fuel w :
  eff_email (config w) = None ->
  prepare_subscription E fuel w = (Raise want_subscription_arity, w).
Proof. intros Hpref. rewrite prepare_subscription_run, Hpref. reflexivity. Qed.

(** C3. With an invalid pre-supplied address, the consent is asked again
    through [_want_subscription(True)], which stops at the unbound name
    [invalid]: [prepare_subscription] raises a [NameError] even for a user
    who would decline every prompt.  The metadata is unchanged. *)
Theorem prepare_subscription_invalid_raises fuel w a :
  eff_email (config w) = Some true ->
  eff_email_address (config w) = Some a ->
  a <> "" ->
  safe_email E a = false ->
  (forall history message default, yesno E history message default = false) ->
  prepare_subscription E (S fuel) w =
    (Raise (NameError "invalid"), extend w [EvSafeEmail a]).
Proof.
  intros Hpref Haddr Hne Hinvalid _.
  apply String.eqb_neq in Hne.
  rewrite prepare_subscription_run, Hpref, Haddr, Hne, Hinvalid. reflexivity.
Qed.

(** C9. No run of [prepare_subscription] changes the configuration:
    [_get_subscription_email] never returns an address to write back, since
    it stops at the unbound name [config] (or, called with an argument, at
    the call). *)
Theorem prepare_subscription_keeps_config fuel w :
  config (snd (prepare_subscription E fuel w)) = config w.
Proof.
  rewrite prepare_subscription_run.
  destruct (eff_email (config w)) as [[|]|]; try reflexivity.
  destruct (eff_email_address (config w)) as [a|]; try reflexivity.
  destruct (String.eqb a ""); try reflexivity.
  destruct (safe_email E a).
  - unfold staged. destruct (acc w); reflexivity.
  - destruct fuel; reflexivity.
Qed.

(** No run of [prepare_subscription] asks the user anything: each path to
    a prompt raises before [display_util.yesno] is reached. *)
Lemma prepare_subscription_never_prompts fuel w :
  prompts (snd (prepare_subscription E fuel w)) = prompts w.
Proof.
  rewrite prepare_subscription_run.
  destruct (eff_email (config w)) as [[|]|]; try reflexivity.
  destruct (eff_email_address (config w)) as [a|]; try reflexivity.
  destruct (String.eqb a ""); try reflexivity.
  destruct (safe_email E a).
  - unfold staged. destruct (acc w); simpl.
    + unfold prompts. simpl. rewrite List.filter_app. simpl. apply app_nil_r.
    + rewrite prompts_extend. apply app_nil_r.
  - destruct fuel; simpl; rewrite prompts_extend; apply app_nil_r.
Qed.


End Facts.

(** * The properties at sample inputs *)

Lemma handle_subscription_dry_run_witness :
  handle_subscription online_env dry_run_world = (Ok tt, dry_run_world).
Proof. apply handle_subscription_dry_run. reflexivity. Defined.

Lemma handle_subscription_attempts_once_witness :
  exists w1,
    handle_subscription online_env pending_world = (Ok tt, w1) /\
    pending w1 = None /\
    storage w1 !! "a1b2c3" = Some (meta_update (meta (sample_account (Some sample_address))) None) /\
    posts w1 =
      (posts pending_world ++
       [EvPost (EFF_SUBSCRIBE_URI online_env) (subscribe_data sample_address)])%list /\
    handle_subscription online_env w1 = (Ok tt, w1).
Proof.
  apply (handle_subscription_attempts_once online_env pending_world
           (sample_account (Some sample_address)) sample_address
           response_subscribed Success);
    [reflexivity | reflexivity | reflexivity | discriminate | reflexivity | reflexivity].
Defined.

(** C1 as stated fails when the request itself fails: the exception leaves
    [handle_subscription], the pending address stays, and a second call
    sends a second request. *)
Lemma handle_subscription_transport_failure_keeps_pending :
  dry_run (config pending_world) = false /\
  pending pending_world = Some sample_address /\
  ~ cleared_for_good offline_env pending_world /\
  fst (handle_subscription offline_env pending_world) = Raise ConnectionError /\
  pending (snd (handle_subscription offline_env pending_world)) = Some sample_address /\
  length (posts (snd (handle_subscription offline_env
                        (snd (handle_subscription offline_env pending_world))))) = 2.
Proof.
  split; [reflexivity|]. split; [reflexivity|]. split; [|repeat split].
  intros (res & w1 & ac1 & Hrun & Hacc & Hnone & _).
  assert (Hfirst : handle_subscription offline_env pending_world =
            (Raise ConnectionError,
             extend pending_world (request_events offline_env sample_address)))
    by reflexivity.
  rewrite Hfirst in Hrun. inversion Hrun; subst.
  simpl in Hacc. inversion Hacc; subst. discriminate Hnone.
Qed.

Lemma subscribe_http_error_reported_witness :
  check_outcome response_500 = Returns ServerError /\
  spec_classify response_500 = ServerError /\
  reported_as ServerError failing_env sample_address pending_world /\
  report ServerError =
    [EvNotify ("We were unable to subscribe you the EFF mailing list"
               +:+ ". You can try again later by visiting https://act.eff.org.")].
Proof.
  apply (subscribe_http_error_reported failing_env sample_address pending_world
           response_500); [reflexivity | simpl; lia].
Defined.

(** C2 as stated fails for a transport failure: [requests.post] raises
    outside the [try] block of [_check_response], the exception reaches the
    caller of [subscribe] and the user is told nothing. *)
Lemma subscribe_transport_failure_propagates :
  server_reply offline_env sample_address pending_world = Raises ConnectionError /\
  subscribe offline_env sample_address pending_world =
    (Raise ConnectionError,
     extend pending_world (request_events offline_env sample_address)) /\
  ~ reported_as ServerError offline_env sample_address pending_world.
Proof.
  split; [reflexivity|]. split; [reflexivity|].
  intros (w1 & Hrun & _).
  rewrite subscribe_cases in Hrun. discriminate Hrun.
Qed.

Lemma subscribe_json_list_escapes_witness :
  spec_classify response_array = MalformedResponse /\
  exists w1,
    subscribe list_env sample_address pending_world =
      (Raise (TypeError "list indices must be integers or slices, not str"), w1) /\
    notifications w1 = notifications pending_world.
Proof.
  apply (subscribe_json_list_escapes list_env sample_address pending_world
           response_array []); reflexivity.
Defined.

Lemma prepare_subscription_opt_out_witness :
  prepare_subscription consenting_env 1 opt_out_world = (Ok tt, opt_out_world).
Proof. apply prepare_subscription_opt_out. reflexivity. Defined.

Lemma prepare_subscription_unset_raises_witness :
  prepare_subscription consenting_env 1 unset_world =
    (Raise want_subscription_arity, unset_world).
Proof. apply prepare_subscription_unset_raises. reflexivity. Defined.

Lemma prepare_subscription_invalid_raises_witness :
  prepare_subscription declining_env 1 invalid_address_world =
    (Raise (NameError "invalid"),
     extend invalid_address_world [EvSafeEmail "not-an-address"]).
Proof.
  apply (prepare_subscription_invalid_raises declining_env 0 invalid_address_world
           "not-an-address");
    [reflexivity | reflexivity | discriminate | reflexivity | reflexivity].
Defined.

(** With the preference set to yes and no address given, the address is to
    be asked for; the run stops at the unbound name [config] instead, and
    the configuration still has no address. *)
Lemma prepare_subscription_no_address_example :
  prepare_subscription consenting_env 1 no_address_world =
    (Raise (NameError "config"), no_address_world).
Proof. reflexivity. Qed.

(** With the preference unset, a user who would accept the default of every
    prompt is asked nothing: the run stops at the call of
    [_want_subscription]. *)
Lemma prepare_subscription_default_user_example :
  prepare_subscription online_env 1 unset_world =
    (Raise want_subscription_arity, unset_world).
Proof. reflexivity. Qed.

(** The three responses the specification lists, each with the notification
    it calls for. *)
Lemma subscribe_status_true_example :
  reported_as Success online_env sample_address pending_world.
Proof.
  apply (subscribe_2xx_reported online_env sample_address pending_world
           response_subscribed); [reflexivity | reflexivity |].
  intros body Hbody. inversion Hbody. eauto.
Qed.

Lemma subscribe_status_false_example :
  reported_as InvalidEmail
    (sample_env accept_default (Returns response_rejected)) sample_address pending_world
  /\ contains (failure_message (Some "your e-mail address appears to be invalid"))
              "your e-mail address appears to be invalid".
Proof.
  split; [|apply failure_message_contains].
  apply (subscribe_2xx_reported _ sample_address pending_world response_rejected);
    [reflexivity | reflexivity |].
  intros body Hbody. inversion Hbody. eauto.
Qed.

Lemma subscribe_not_json_example :
  reported_as MalformedResponse
    (sample_env accept_default (Returns response_not_json)) sample_address pending_world
  /\ contains (failure_message (Some "there was a problem with the server response"))
              "there was a problem with the server response".
Proof.
  split; [|apply failure_message_contains].
  apply (subscribe_2xx_reported _ sample_address pending_world response_not_json);
    [reflexivity | reflexivity |].
  intros body Hbody. inversion Hbody.
Qed.

(** * Further properties of the module *)

Section Beyond.

Variable E : Env.

(** ** The helpers of the consent flow *)

(** X9. [_want_subscription] never asks and never answers: with one
    argument it stops at the unbound name [invalid], with any other number
    of arguments the call itself fails.  The world is left as it was. *)
Theorem want_subscription_always_raises args w :
  _want_subscription E args w =
    (Raise (if (length args =? 1)%nat
            then NameError "invalid"
            else want_subscription_arity), w).
Proof. destruct args as [|v [|v' rest]]; reflexivity. Qed.

(** X10. [_get_subscription_email] never asks and never returns an address:
    without argument it stops at the unbound name [config], with arguments
    the call itself fails.  The world is left as it was. *)
Theorem get_subscription_email_always_raises args w :
  _get_subscription_email E args w =
    (Raise (match args with
            | [] => NameError "config"
            | _ => get_subscription_email_arity
            end), w).
Proof. destruct args; reflexivity. Qed.

(** ** prepare_subscription *)

(** X1. With [--eff-mail] and a non-empty address that [util.safe_email]
    accepts, [prepare_subscription] validates the address once, stages
    exactly that address on the account (over whatever was pending), writes
    the metadata to the storage and changes nothing else. *)
Theorem prepare_subscription_stages fuel w ac a :
  eff_email (config w) = Some true ->
  eff_email_address (config w) = Some a ->
  a <> "" ->
  safe_email E a = true ->
  acc w = Some ac ->
  exists w1,
    prepare_subscription E fuel w = (Ok tt, w1) /\
    acc w1 = Some {| acc_id := acc_id ac; meta := meta_update (meta ac) (Some a) |} /\
    storage w1 = <[acc_id ac := meta_update (meta ac) (Some a)]> (storage w) /\
    config w1 = config w /\
    trace w1 =
      (trace w ++ [EvSafeEmail a;
                   EvUpdateMeta (acc_id ac) (meta_update (meta ac) (Some a))])%list.
Proof.
  intros Hpref Haddr Hne Hvalid Hacc.
  apply String.eqb_neq in Hne.
  rewrite prepare_subscription_run, Hpref, Haddr, Hne, Hvalid.
  unfold staged. rewrite Hacc.
  eexists. split; [reflexivity|]. repeat split.
Qed.

(** X2. Staging is idempotent: a second run of [prepare_subscription] after
    a successful one ends with the same account, the same storage and the
    same configuration. *)
Theorem prepare_subscription_idempotent fuel fuel' w ac a :
  eff_email (config w) = Some true ->
  eff_email_address (config w) = Some a ->
  a <> "" ->
  safe_email E a = true ->
  acc w = Some ac ->
  let w1 := snd (prepare_subscription E fuel w) in
  exists w2,
    prepare_subscription E fuel' w1 = (Ok tt, w2) /\
    acc w2 = acc w1 /\
    storage w2 = storage w1 /\
    config w2 = config w1.
Proof.
  intros Hpref Haddr Hne Hvalid Hacc w1.
  apply String.eqb_neq in Hne.
  assert (Hw1 : w1 = snd (staged a w)).
  { unfold w1. rewrite prepare_subscription_run, Hpref, Haddr, Hne, Hvalid.
    reflexivity. }
  unfold staged in Hw1. rewrite Hacc in Hw1. simpl in Hw1.
  rewrite prepare_subscription_run. rewrite Hw1. simpl.
  rewrite Hpref, Haddr, Hne, Hvalid. unfold staged. simpl.
  eexists. split; [reflexivity|]. simpl. repeat split.
  apply insert_insert_eq.
Qed.

(** X8. The re-ask loop is entered at most once: with any fuel but zero a
    run of [prepare_subscription] ends, and its result does not depend on
    the fuel. *)
Theorem prepare_subscription_terminates fuel w :
  prepare_subscription E (S fuel) w = prepare_subscription E 1 w /\
  fst (prepare_subscription E (S fuel) w) <> OutOfFuel.
Proof.
  rewrite !prepare_subscription_run.
  split; [reflexivity|].
  destruct (eff_email (config w)) as [[|]|]; simpl; try discriminate.
  destruct (eff_email_address (config w)) as [a|]; simpl; try discriminate.
  destruct (String.eqb a ""); simpl; try discriminate.
  destruct (safe_email E a); simpl; try discriminate.
  unfold staged. destruct (acc w); simpl; discriminate.
Qed.

(** X7. [prepare_subscription] never talks to the server and never notifies
    the user, and it keeps the identity of the account and the metadata
    fields other than the pending subscription. *)
Theorem prepare_subscription_stays_local fuel w :
  let w1 := snd (prepare_subscription E fuel w) in
  posts w1 = posts w /\
  notifications w1 = notifications w /\
  account_frame w1 = account_frame w.
Proof.
  simpl. rewrite prepare_subscription_run.
  destruct (eff_email (config w)) as [[|]|]; try (repeat split; reflexivity).
  destruct (eff_email_address (config w)) as [a|]; try (repeat split; reflexivity).
  destruct (String.eqb a ""); try (repeat split; reflexivity).
  destruct (safe_email E a).
  - unfold staged, account_frame. destruct (acc w) as [ac|] eqn:Hacc; simpl.
    + unfold posts, notifications. simpl. rewrite !List.filter_app. simpl.
      rewrite !app_nil_r. repeat split.
    + rewrite posts_extend, notifications_extend, !app_nil_r, Hacc. repeat split.
  - destruct fuel; simpl;
      rewrite posts_extend, notifications_extend, !app_nil_r; repeat split.
Qed.

(** ** subscribe and _check_response *)

(** X14. [subscribe] only adds to the trace: the configuration, the account
    and the storage are untouched, the user is asked nothing and is told at
    most one thing. *)
Theorem subscribe_only_extends_trace address w :
  let w1 := snd (subscribe E address w) in
  config w1 = config w /\
  acc w1 = acc w /\
  storage w1 = storage w /\
  prompts w1 = prompts w /\
  (length (notifications w1) <= S (length (notifications w)))%nat.
Proof.
  simpl. rewrite subscribe_cases.
  destruct (server_reply E address w) as [r|e];
    [destruct (check_outcome r) as [o|e]|]; simpl;
    rewrite prompts_extend, notifications_extend, length_app;
    unfold request_events; rewrite ?List.filter_app; simpl.
  - repeat split.
    + destruct o; simpl; apply app_nil_r.
    + destruct o; simpl; lia.
  - repeat split; [apply app_nil_r | lia].
  - repeat split; [apply app_nil_r | lia].
Qed.

(** X11. [_check_response] returns normally exactly when the status is 4xx
    or 5xx, or the body is not JSON, or the body is a JSON object; in every
    other case (a JSON list, string, number or null under another status)
    the exception that leaves it is a [TypeError]. *)
Theorem check_response_returns_iff r w :
  (fst (_check_response r w) = Ok tt <->
     is_4xx_5xx r = true \/ json_body r = None \/
     exists fields, json_body r = Some (JObj fields)) /\
  (forall e, fst (_check_response r w) = Raise e -> exists what, e = TypeError what).
Proof.
  rewrite check_response_run.
  unfold check_outcome, raise_for_status, response_json, is_4xx_5xx.
  destruct ((400 <=? status_code r)%Z && (status_code r <? 600)%Z); simpl.
  { split; [split; auto | intros e He; discriminate He]. }
  destruct (json_body r) as [body|]; simpl.
  2: { split; [split; auto | intros e He; discriminate He]. }
  destruct body; simpl;
    try (split;
         [ split; [intros H; discriminate H
                  | intros [H|[H|[fields H]]]; discriminate H]
         | intros e He; inversion He; eauto ]).
  destruct (dict_get "status" fields) as [v|]; simpl.
  - split; [split; eauto | intros e He; discriminate He].
  - split; [split; eauto | intros e He; discriminate He].
Qed.

(** X12. Outside 400..599 the status code plays no part: a 1xx or 3xx
    response is handled exactly like a 200 response with the same body. *)
Theorem check_response_ignores_other_statuses r w :
  is_4xx_5xx r = false ->
  _check_response r w = _check_response (with_status 200 r) w.
Proof.
  intros Hstatus. rewrite !check_response_run.
  unfold check_outcome, raise_for_status. unfold is_4xx_5xx in Hstatus.
  rewrite Hstatus. reflexivity.
Qed.

(** X15. For a response outside 400..599 whose body is a JSON object, the
    value under [status] decides by its truth value alone: a truthy value
    is a silent success, a falsy one ([false], [0], [null], an empty string,
    list or object) is reported as an invalid address, and a missing key as
    a problem with the server response. *)
Theorem check_response_json_object r w fields :
  is_4xx_5xx r = false ->
  json_body r = Some (JObj fields) ->
  _check_response r w =
    (Ok tt,
     extend w
       (response_log r ::
        match dict_get "status" fields with
        | Some v =>
            if truthy v then []
            else [EvNotify (failure_message
                              (Some "your e-mail address appears to be invalid"))]
        | None =>
            [EvNotify (failure_message
                         (Some "there was a problem with the server response"))]
        end)).
Proof.
  intros Hstatus Hbody. rewrite check_response_run.
  unfold check_outcome, raise_for_status, response_json.
  unfold is_4xx_5xx in Hstatus. rewrite Hstatus, Hbody. simpl.
  destruct (dict_get "status" fields) as [v|]; [destruct (truthy v)|]; reflexivity.
Qed.

(** X16. For a response outside 400..599 whose body is not JSON, the user is
    told of a problem with the server response and nothing is raised. *)
Theorem check_response_not_json r w :
  is_4xx_5xx r = false ->
  json_body r = None ->
  _check_response r w =
    (Ok tt,
     extend w
       [response_log r;
        EvNotify (failure_message
                    (Some "there was a problem with the server response"))]).
Proof.
  intros Hstatus Hbody. rewrite check_response_run.
  unfold check_outcome, raise_for_status, response_json.
  unfold is_4xx_5xx in Hstatus. rewrite Hstatus, Hbody. reflexivity.
Qed.

(** ** handle_subscription *)

(** X4. When nothing is pending (no account, no pending address, or an
    empty one) [handle_subscription] does nothing, dry run or not. *)
Theorem handle_subscription_nothing_pending w :
  str_truthy (pending w) = false ->
  handle_subscription E w = (Ok tt, w).
Proof.
  intros Hnone. rewrite handle_subscription_run. unfold pending in Hnone.
  destruct (dry_run (config w)); [reflexivity|].
  destruct (acc w) as [ac|]; [|reflexivity].
  destruct (register_to_eff (meta ac)) as [address|]; [|reflexivity].
  simpl in Hnone. destruct (String.eqb address ""); [reflexivity|discriminate].
Qed.

(** X5. When [subscribe] raises during [handle_subscription], the
    exception leaves [handle_subscription] at once: [requests.post] has
    been called once, for the pending address, but the account is not
    touched, [update_meta] is not called, and the storage and the
    configuration are as before, so the subscription stays pending. *)
Theorem handle_subscription_subscribe_raises w ac address e :
  dry_run (config w) = false ->
  acc w = Some ac ->
  register_to_eff (meta ac) = Some address ->
  address <> "" ->
  fst (subscribe E address w) = Raise e ->
  handle_subscription E w = (Raise e, snd (subscribe E address w)) /\
  acc (snd (handle_subscription E w)) = acc w /\
  storage (snd (handle_subscription E w)) = storage w /\
  config (snd (handle_subscription E w)) = config w /\
  updates (snd (handle_subscription E w)) = updates w /\
  posts (snd (handle_subscription E w)) =
    (posts w ++ [EvPost (EFF_SUBSCRIBE_URI E) (subscribe_data address)])%list.
Proof.
  intros Hdry Hacc Hpend Hne Hraise.
  apply String.eqb_neq in Hne.
  assert (Hrun : handle_subscription E w = (Raise e, snd (subscribe E address w))).
  { rewrite handle_subscription_run, Hdry, Hacc, Hpend, Hne.
    destruct (subscribe E address w) as [res w'] eqn:Hsub.
    simpl in Hraise. subst res. reflexivity. }
  split; [exact Hrun|]. rewrite Hrun. simpl.
  rewrite subscribe_cases in Hraise |- *.
  destruct (server_reply E address w) as [r|e'];
    [destruct (check_outcome r) as [o|e']|]; simpl in Hraise |- *;
    [discriminate Hraise| |];
    (split; [reflexivity|]); (split; [reflexivity|]); (split; [reflexivity|]);
    unfold updates; rewrite posts_extend; simpl;
    unfold request_events; rewrite !List.filter_app; simpl;
    rewrite ?app_nil_r; split; reflexivity.
Qed.

(** X6. [handle_subscription] never asks the user anything, never changes
    the configuration, and keeps the identity of the account and the
    metadata fields other than the pending subscription. *)
Theorem handle_subscription_frame w :
  let w1 := snd (handle_subscription E w) in
  config w1 = config w /\
  prompts w1 = prompts w /\
  account_frame w1 = account_frame w.
Proof.
  simpl. rewrite handle_subscription_run.
  destruct (dry_run (config w)); [repeat split|].
  destruct (acc w) as [ac|] eqn:Hacc; [|repeat split].
  destruct (register_to_eff (meta ac)) as [address|]; [|repeat split].
  destruct (String.eqb address ""); [repeat split|].
  rewrite subscribe_cases.
  destruct (server_reply E address w) as [r|e];
    [destruct (check_outcome r) as [o|e]|]; simpl.
  - unfold prompts, account_frame, cleared. simpl. rewrite Hacc.
    unfold request_events. rewrite !List.filter_app. simpl.
    split; [reflexivity|]. split; [|reflexivity].
    destruct o; simpl; rewrite !app_nil_r; reflexivity.
  - rewrite prompts_extend. unfold account_frame. simpl.
    unfold request_events. rewrite ?List.filter_app. simpl.
    rewrite ?app_nil_r. repeat split.
  - rewrite prompts_extend. unfold account_frame. simpl.
    unfold request_events. rewrite ?List.filter_app. simpl.
    rewrite ?app_nil_r. repeat split.
Qed.

(** X17. [handle_subscription] calls [update_meta] at most once, and only
    for the account it was given with the pending field cleared: exactly
    once when something was pending outside a dry run and [subscribe]
    returned, not at all otherwise. *)
Theorem handle_subscription_writes_own_account w ac :
  acc w = Some ac ->
  updates (snd (handle_subscription E w)) =
    (updates w ++
     match fst (handle_subscription E w) with
     | Ok _ =>
         if negb (dry_run (config w)) && str_truthy (register_to_eff (meta ac))
         then [EvUpdateMeta (acc_id ac) (meta_update (meta ac) None)]
         else []
     | _ => []
     end)%list.
Proof.
  intros Hacc. rewrite handle_subscription_run, Hacc.
  destruct (dry_run (config w)); [symmetry; apply app_nil_r|].
  destruct (register_to_eff (meta ac)) as [address|]; [|symmetry; apply app_nil_r].
  simpl. destruct (String.eqb address ""); [symmetry; apply app_nil_r|].
  rewrite subscribe_cases.
  destruct (server_reply E address w) as [r|e];
    [destruct (check_outcome r) as [o|e]|]; simpl;
    unfold updates, cleared; simpl;
    unfold request_events; rewrite !List.filter_app; simpl;
    rewrite ?app_nil_r; try reflexivity.
  destruct o; simpl; rewrite ?app_nil_r; reflexivity.
Qed.

(** X3. Staging followed by handling: after [prepare_subscription] has
    staged the address, [handle_subscription] (outside a dry run, the server
    answering with a response that is classified) posts that very address
    once and leaves the account and the storage with the original metadata
    and no pending subscription. *)
Theorem prepare_then_handle fuel w ac a r o :
  eff_email (config w) = Some true ->
  eff_email_address (config w) = Some a ->
  a <> "" ->
  safe_email E a = true ->
  acc w = Some ac ->
  dry_run (config w) = false ->
  let w1 := snd (prepare_subscription E fuel w) in
  server_reply E a w1 = Returns r ->
  check_outcome r = Returns o ->
  exists w2,
    handle_subscription E w1 = (Ok tt, w2) /\
    acc w2 = Some {| acc_id := acc_id ac; meta := meta_update (meta ac) None |} /\
    storage w2 = <[acc_id ac := meta_update (meta ac) None]> (storage w) /\
    posts w2 = (posts w ++ [EvPost (EFF_SUBSCRIBE_URI E) (subscribe_data a)])%list.
Proof.
  intros Hpref Haddr Hne Hvalid Hacc Hdry w1.
  apply String.eqb_neq in Hne.
  assert (Hw1 : w1 = snd (staged a w)).
  { unfold w1. rewrite prepare_subscription_run, Hpref, Haddr, Hne, Hvalid.
    reflexivity. }
  unfold staged in Hw1. rewrite Hacc in Hw1. simpl in Hw1.
  intros Hreply Hout.
  rewrite handle_subscription_run.
  assert (Hdry1 : dry_run (config w1) = false) by (rewrite Hw1; exact Hdry).
  assert (Hacc1 : acc w1 =
            Some {| acc_id := acc_id ac; meta := meta_update (meta ac) (Some a) |})
    by (rewrite Hw1; reflexivity).
  rewrite Hdry1, Hacc1. simpl. rewrite Hne, subscribe_cases, Hreply, Hout.
  eexists. split; [reflexivity|].
  unfold cleared. simpl. split; [reflexivity|]. split.
  - rewrite Hw1. simpl. apply insert_insert_eq.
  - unfold posts. simpl. rewrite Hw1. simpl.
    unfold request_events. rewrite !List.filter_app. simpl.
    rewrite report_has_no_post, !app_nil_r. reflexivity.
Qed.

(** ** _report_failure *)

Lemma string_length_append (s t : string) :
  String.length (s +:+ t) = (String.length s + String.length t)%nat.
Proof. induction s as [|c s IH]; simpl; [reflexivity | rewrite IH; reflexivity]. Qed.

Lemma string_append_cancel_r (s1 s2 t : string) :
  s1 +:+ t = s2 +:+ t -> s1 = s2.
Proof.
  revert s2. induction s1 as [|c s1 IH]; intros [|c' s2] H; simpl in H.
  - reflexivity.
  - apply (f_equal String.length) in H. change ("" +:+ t) with t in H. simpl in H.
    rewrite (string_length_append s2 t) in H. lia.
  - apply (f_equal String.length) in H. change ("" +:+ t) with t in H. simpl in H.
    rewrite (string_length_append s1 t) in H. lia.
  - injection H as -> H. f_equal. apply IH. exact H.
Qed.

(** X13. What the user is told identifies the reason: two calls of
    [_report_failure] have the same effect only for the same reason, and a
    call without reason is never mistaken for one with a reason, even an
    empty one. *)
Theorem report_failure_tells_the_reason r1 r2 w :
  _report_failure r1 w = _report_failure r2 w -> r1 = r2.
Proof.
  rewrite !report_failure_run. intros H.
  assert (Hmsg : failure_message r1 = failure_message r2).
  { injection H as H. apply app_inv_head in H. congruence. }
  clear H. destruct r1 as [a|], r2 as [b|]; unfold failure_message in Hmsg;
    simpl in Hmsg.
  - f_equal. injection Hmsg as Hmsg.
    apply string_append_cancel_r in Hmsg. exact Hmsg.
  - discriminate Hmsg.
  - discriminate Hmsg.
  - reflexivity.
Qed.

End Beyond.

(** * The further properties at sample inputs *)

Lemma prepare_subscription_stages_witness :
  exists w1,
    prepare_subscription online_env 0 valid_address_world = (Ok tt, w1) /\
    acc w1 = Some (sample_account (Some sample_address)) /\
    storage w1 = <["a1b2c3" := meta (sample_account (Some sample_address))]> ∅ /\
    config w1 = config valid_address_world /\
    trace w1 =
      [EvSafeEmail sample_address;
       EvUpdateMeta "a1b2c3" (meta (sample_account (Some sample_address)))].
Proof.
  apply (prepare_subscription_stages online_env 0 valid_address_world
           (sample_account None) sample_address);
    [reflexivity | reflexivity | discriminate | reflexivity | reflexivity].
Defined.

Lemma prepare_subscription_idempotent_witness :
  exists w2,
    prepare_subscription online_env 1
      (snd (prepare_subscription online_env 1 valid_address_world)) = (Ok tt, w2) /\
    acc w2 = acc (snd (prepare_subscription online_env 1 valid_address_world)) /\
    storage w2 = storage (snd (prepare_subscription online_env 1 valid_address_world)) /\
    config w2 = config (snd (prepare_subscription online_env 1 valid_address_world)).
Proof.
  apply (prepare_subscription_idempotent online_env 1 1 valid_address_world
           (sample_account None) sample_address);
    [reflexivity | reflexivity | discriminate | reflexivity | reflexivity].
Defined.

Lemma prepare_then_handle_witness :
  exists w2,
    handle_subscription online_env
      (snd (prepare_subscription online_env 1 valid_address_world)) = (Ok tt, w2) /\
    acc w2 = Some (sample_account None) /\
    storage w2 = <["a1b2c3" := meta (sample_account None)]> ∅ /\
    posts w2 =
      [EvPost "https://supporters.eff.org/subscribe/certbot"
              (subscribe_data sample_address)].
Proof.
  apply (prepare_then_handle online_env 1 valid_address_world
           (sample_account None) sample_address response_subscribed Success);
    [reflexivity | reflexivity | discriminate | reflexivity | reflexivity
    | reflexivity | reflexivity | reflexivity].
Defined.

Lemma handle_subscription_nothing_pending_witness :
  handle_subscription online_env
    (sample_world (sample_config None None false) (Some (sample_account (Some ""))))
  = (Ok tt,
     sample_world (sample_config None None false) (Some (sample_account (Some "")))).
Proof. apply handle_subscription_nothing_pending. reflexivity. Defined.

Lemma handle_subscription_subscribe_raises_witness :
  handle_subscription list_env pending_world =
    (Raise (TypeError "list indices must be integers or slices, not str"),
     snd (subscribe list_env sample_address pending_world)) /\
  acc (snd (handle_subscription list_env pending_world)) = acc pending_world /\
  storage (snd (handle_subscription list_env pending_world)) = storage pending_world /\
  config (snd (handle_subscription list_env pending_world)) = config pending_world /\
  updates (snd (handle_subscription list_env pending_world)) = updates pending_world /\
  posts (snd (handle_subscription list_env pending_world)) =
    (posts pending_world ++
     [EvPost (EFF_SUBSCRIBE_URI list_env) (subscribe_data sample_address)])%list.
Proof.
  apply (handle_subscription_subscribe_raises list_env pending_world
           (sample_account (Some sample_address)) sample_address
           (TypeError "list indices must be integers or slices, not str"));
    [reflexivity | reflexivity | reflexivity | discriminate | reflexivity].
Defined.

Lemma handle_subscription_writes_own_account_witness :
  updates (snd (handle_subscription online_env pending_world)) =
    [EvUpdateMeta "a1b2c3" (meta (sample_account None))].
Proof.
  exact (handle_subscription_writes_own_account online_env pending_world
           (sample_account (Some sample_address)) eq_refl).
Defined.

Lemma check_response_ignores_other_statuses_witness :
  _check_response response_redirect pending_world =
  _check_response (with_status 200 response_redirect) pending_world.
Proof. apply check_response_ignores_other_statuses. reflexivity. Defined.

Lemma check_response_json_object_witness :
  _check_response response_redirect pending_world =
    (Ok tt, extend pending_world [response_log response_redirect]).
Proof.
  apply (check_response_json_object response_redirect pending_world
           [("status", JBool true)]); reflexivity.
Defined.

Lemma check_response_not_json_witness :
  _check_response response_not_json pending_world =
    (Ok tt,
     extend pending_world
       [response_log response_not_json;
        EvNotify (failure_message
                    (Some "there was a problem with the server response"))]).
Proof. apply check_response_not_json; reflexivity. Defined.

Lemma report_failure_tells_the_reason_witness :
  Some "your e-mail address appears to be invalid" =
  Some "your e-mail address appears to be invalid".
Proof.
  apply (report_failure_tells_the_reason _ _ pending_world). reflexivity.
Defined.

